(** * lgmath, so3::Rotation: a shallow embedding of [src/so3/Rotation.cpp]

    The class [lgmath::so3::Rotation] wraps one [Eigen::Matrix3d] and offers
    construction, composition, inversion, point transformation and a
    conditional re-orthonormalisation ([reproject]).

    The embedding is layered as the C++ is:
    - [Scalar]: the arithmetic of [double] that the class body uses, kept
      abstract so that every structural statement holds for IEEE binary64
      as well as for exact arithmetic; two instances are given further down
      ([binary64], on Rocq's primitive floats, and [ideal], on the reals);
    - [Eigen]: fixed-size vectors and matrices with the operations
      [Rotation.cpp] calls on them;
    - [Operations]: the two Lie-group maps [vec2rot] and [rot2vec] of
      [lgmath/so3/Operations.hpp], which the class calls and which are not
      among the sources;
    - [so3]: the class itself, member functions as state transformers over
      the object they are called on. *)

From Stdlib Require Import Bool List NArith ZArith String Factorial.
From Stdlib Require Import Floats Reals Lra Psatz NsatzTactic RNsatz.
Import ListNotations.

Set Implicit Arguments.
Set Warnings "-inexact-float".

(** ** The scalar type

    [Rotation.cpp] uses of [double]: the literals [1.0] and [1e-6], the
    identity matrix's [0.0] and [1.0], [+], [-], [*] (inside Eigen's product
    and determinant), [fabs] and [>]. *)

Class Scalar : Type := {
  scalar : Type;
  s_zero : scalar;
  s_one : scalar;
  s_add : scalar -> scalar -> scalar;
  s_sub : scalar -> scalar -> scalar;
  s_mul : scalar -> scalar -> scalar;
  s_fabs : scalar -> scalar;
  (** [s_gt a b] is the C++ test [a > b]. *)
  s_gt : scalar -> scalar -> bool;
  (** the literal [1e-6] of [Rotation::reproject]. *)
  s_1e_6 : scalar
}.

Declare Scope scalar_scope.
Delimit Scope scalar_scope with s.
Notation "x + y" := (s_add x y) : scalar_scope.
Notation "x - y" := (s_sub x y) : scalar_scope.
Notation "x * y" := (s_mul x y) : scalar_scope.
Notation "x >? y" := (s_gt x y) (at level 70, no associativity) : scalar_scope.

(** ** Eigen: [Vector3d], [VectorXd], [Matrix3d] *)

Module Eigen.
Section Types.
Context {S : Scalar}.

Record Vector3d : Type := mkVector3d { vx : scalar; vy : scalar; vz : scalar }.

(** A dynamically sized column vector; [rows] is its length. *)
Definition VectorXd : Type := list scalar.

Definition rows (v : VectorXd) : N := N.of_nat (List.length v).

(** The conversion [VectorXd -> Vector3d] that the call
    [vec2rot(aaxis_ab)] performs on a vector already known to have three
    rows. *)
Definition head3 (v : VectorXd) : Vector3d :=
  mkVector3d (nth 0 v s_zero) (nth 1 v s_zero) (nth 2 v s_zero).

(** Entry [mIJ] is row [I], column [J]. *)
Record Matrix3d : Type := mkMatrix3d {
  m00 : scalar; m01 : scalar; m02 : scalar;
  m10 : scalar; m11 : scalar; m12 : scalar;
  m20 : scalar; m21 : scalar; m22 : scalar
}.

Local Open Scope scalar_scope.

Definition Identity : Matrix3d :=
  mkMatrix3d s_one s_zero s_zero
             s_zero s_one s_zero
             s_zero s_zero s_one.

Definition transpose (A : Matrix3d) : Matrix3d :=
  mkMatrix3d (m00 A) (m10 A) (m20 A)
             (m01 A) (m11 A) (m21 A)
             (m02 A) (m12 A) (m22 A).

(** The inner product of a row with a column, summed left to right. *)
Definition dot3 (a0 a1 a2 b0 b1 b2 : scalar) : scalar :=
  a0 * b0 + a1 * b1 + a2 * b2.

(** [A * B] on [Matrix3d]. Eigen evaluates the product into a temporary
    before it assigns, so [C_ba_ = C_ba_ * rhs] reads the old [C_ba_]. *)
Definition mul (A B : Matrix3d) : Matrix3d :=
  mkMatrix3d
    (dot3 (m00 A) (m01 A) (m02 A) (m00 B) (m10 B) (m20 B))
    (dot3 (m00 A) (m01 A) (m02 A) (m01 B) (m11 B) (m21 B))
    (dot3 (m00 A) (m01 A) (m02 A) (m02 B) (m12 B) (m22 B))
    (dot3 (m10 A) (m11 A) (m12 A) (m00 B) (m10 B) (m20 B))
    (dot3 (m10 A) (m11 A) (m12 A) (m01 B) (m11 B) (m21 B))
    (dot3 (m10 A) (m11 A) (m12 A) (m02 B) (m12 B) (m22 B))
    (dot3 (m20 A) (m21 A) (m22 A) (m00 B) (m10 B) (m20 B))
    (dot3 (m20 A) (m21 A) (m22 A) (m01 B) (m11 B) (m21 B))
    (dot3 (m20 A) (m21 A) (m22 A) (m02 B) (m12 B) (m22 B)).

(** [A * p] for a point [p]. *)
Definition mul_vec (A : Matrix3d) (p : Vector3d) : Vector3d :=
  mkVector3d
    (dot3 (m00 A) (m01 A) (m02 A) (vx p) (vy p) (vz p))
    (dot3 (m10 A) (m11 A) (m12 A) (vx p) (vy p) (vz p))
    (dot3 (m20 A) (m21 A) (m22 A) (vx p) (vy p) (vz p)).

(** [A.determinant()]: for a 3x3 matrix Eigen expands along the first row. *)
Definition determinant (A : Matrix3d) : scalar :=
  m00 A * (m11 A * m22 A - m12 A * m21 A)
  - m01 A * (m10 A * m22 A - m12 A * m20 A)
  + m02 A * (m10 A * m21 A - m11 A * m20 A).

End Types.
End Eigen.

(** ** The Lie-group maps of [lgmath/so3/Operations.hpp]

    [Rotation.cpp] includes [lgmath/so3/Operations.hpp] and calls
    [so3::vec2rot] (the exponential map, with an optional [numTerms] that
    defaults to [0]) and [so3::rot2vec] (the logarithmic map). Neither the
    header nor its implementation is among the sources, so the class is
    embedded over any pair of such maps; the specification describes them as
    stateless, pure and total. *)

Class Operations (S : Scalar) : Type := {
  vec2rot : Eigen.Vector3d -> N -> Eigen.Matrix3d;
  rot2vec : Eigen.Matrix3d -> Eigen.Vector3d
}.

(** ** [namespace lgmath::so3]: the class [Rotation] *)

Module so3.
Section RotationClass.
Context {S : Scalar} {Ops : Operations S}.

Import Eigen.
Local Open Scope scalar_scope.

(** The class has one private data member, [Eigen::Matrix3d C_ba_]. *)
Record Rotation : Type := mkRotation { C_ba_ : Matrix3d }.

(** A member function is a transformer of the object it is called on:
    it takes [*this] and gives back its result and the object afterwards. *)
Definition Method (A : Type) : Type := Rotation -> A * Rotation.

Definition ret {A : Type} (a : A) : Method A := fun this => (a, this).

Definition bind {A B : Type} (m : Method A) (k : A -> Method B) : Method B :=
  fun this => let (a, this') := m this in k a this'.

(** Reading and writing [this->C_ba_], and reading [*this]. *)
Definition get_C : Method Matrix3d := fun this => (C_ba_ this, this).
Definition set_C (C : Matrix3d) : Method unit := fun _ => (tt, mkRotation C).
Definition get_this : Method Rotation := fun this => (this, this).

(** The object after a call, and the call's result. *)
Definition exec {A : Type} (m : Method A) (this : Rotation) : Rotation :=
  snd (m this).
Definition eval {A : Type} (m : Method A) (this : Rotation) : A :=
  fst (m this).

Notation "x <- m ;; k" := (bind m (fun x => k))
  (at level 61, m at next level, right associativity).
Notation "m ;;; k" := (bind m (fun _ => k))
  (at level 61, right associativity).

(** The drift test of [reproject]: [fabs(1.0 - C.determinant()) > 1e-6]. *)
Definition det_drift (C : Matrix3d) : bool :=
  s_fabs (s_one - determinant C) >? s_1e_6.

(** [void Rotation::reproject(bool force)], as [Rotation.cpp] defines it
    and calls it ([Rotation.hpp] declares it without the parameter). *)
Definition reproject (force : bool) : Method unit :=
  C <- get_C ;;
  if force || det_drift C
  then set_C (vec2rot (rot2vec C) 0%N)
  else ret tt.

(** The matrix [reproject] writes: the exponential of the logarithm. *)
Definition reprojection (C : Matrix3d) : Matrix3d := vec2rot (rot2vec C) 0%N.

(** What a conditional reprojection leaves behind: a matrix whose
    determinant the drift test accepts, or a reprojected one. *)
Definition accepted_or_reprojected (C : Matrix3d) : Prop :=
  det_drift C = false \/ exists C0, C = reprojection C0.

(** [Rotation::Rotation()] *)
Definition Rotation_default : Rotation := mkRotation Identity.

(** [Rotation::Rotation(const Rotation& C)] *)
Definition Rotation_copy (C : Rotation) : Rotation := mkRotation (C_ba_ C).

(** [Rotation::Rotation(const Eigen::Matrix3d& C)] *)
Definition Rotation_of_matrix (C : Matrix3d) : Rotation :=
  exec (reproject false) (mkRotation C).

(** [Rotation::Rotation(const Eigen::Vector3d& aaxis_ab, unsigned int numTerms)];
    the header gives [numTerms] the default [0]. *)
Definition Rotation_of_aaxis (aaxis_ab : Vector3d) (numTerms : N) : Rotation :=
  mkRotation (vec2rot aaxis_ab numTerms).

(** What a constructor can throw. *)
Inductive exception : Type :=
| invalid_argument (what : string).

Definition not_dimension_3 : string :=
  "Tried to initialize a rotation from a VectorXd that was not dimension 3".

(** [Rotation::Rotation(const Eigen::VectorXd& aaxis_ab)] *)
Definition Rotation_of_VectorXd (aaxis_ab : VectorXd) : exception + Rotation :=
  if negb (rows aaxis_ab =? 3)%N
  then inl (invalid_argument not_dimension_3)
  else inr (mkRotation (vec2rot (head3 aaxis_ab) 0%N)).

(** [Rotation& Rotation::operator=(Rotation C)]: swap with the by-value copy. *)
Definition assign (C : Rotation) : Method unit := set_C (C_ba_ C).

(** [const Eigen::Matrix3d& Rotation::matrix() const] *)
Definition matrix : Method Matrix3d := get_C.

(** [Eigen::Vector3d Rotation::vec() const] *)
Definition vec : Method Vector3d := C <- get_C ;; ret (rot2vec C).

(** [Rotation Rotation::inverse() const] *)
Definition inverse : Method Rotation :=
  C <- get_C ;;
  let temp := Rotation_default in
  let temp := exec (set_C (transpose C)) temp in
  let temp := exec (reproject false) temp in
  ret temp.

(** [Rotation& Rotation::operator*=(const Rotation& C_rhs)] *)
Definition mul_assign (C_rhs : Rotation) : Method unit :=
  C <- get_C ;;
  set_C (mul C (C_ba_ C_rhs)) ;;;
  reproject false.

(** [Rotation Rotation::operator*(const Rotation& C_rhs) const] *)
Definition mul_rot (C_rhs : Rotation) : Method Rotation :=
  this <- get_this ;;
  let temp := Rotation_copy this in
  let temp := exec (mul_assign C_rhs) temp in
  ret temp.

(** [Rotation& Rotation::operator/=(const Rotation& C_rhs)] *)
Definition div_assign (C_rhs : Rotation) : Method unit :=
  C <- get_C ;;
  set_C (mul C (transpose (C_ba_ C_rhs))) ;;;
  reproject false.

(** [Rotation Rotation::operator/(const Rotation& C_rhs) const] *)
Definition div_rot (C_rhs : Rotation) : Method Rotation :=
  this <- get_this ;;
  let temp := Rotation_copy this in
  let temp := exec (div_assign C_rhs) temp in
  ret temp.

(** [Eigen::Vector3d Rotation::operator*(const Eigen::Vector3d& p_a) const] *)
Definition mul_point (p_a : Vector3d) : Method Vector3d :=
  C <- get_C ;; ret (mul_vec C p_a).

(** *** The public interface as calls

    Every constructor and member function of the header, as one type of
    calls on an object; [invoke] runs a call and either throws or returns
    a value together with the object afterwards. A constructor initialises
    the object it is invoked on. *)

Inductive call : Type :=
| new_default
| new_copy (C : Rotation)
| new_of_matrix (C : Matrix3d)
| new_of_aaxis (aaxis_ab : Vector3d) (numTerms : N)
| new_of_VectorXd (aaxis_ab : VectorXd)
| call_assign (C : Rotation)
| call_matrix
| call_vec
| call_inverse
| call_reproject (force : bool)
| call_mul_assign (C_rhs : Rotation)
| call_mul (C_rhs : Rotation)
| call_div_assign (C_rhs : Rotation)
| call_div (C_rhs : Rotation)
| call_mul_point (p_a : Vector3d).

Inductive value : Type :=
| v_void
| v_rotation (C : Rotation)
| v_matrix (C : Matrix3d)
| v_vector (v : Vector3d).

Definition returning {A : Type} (wrap : A -> value) (m : Method A)
  (this : Rotation) : exception + value * Rotation :=
  let (a, this') := m this in inr (wrap a, this').

Definition constructed (C : Rotation) : exception + value * Rotation :=
  inr (v_void, C).

Definition invoke (c : call) (this : Rotation) : exception + value * Rotation :=
  match c with
  | new_default => constructed Rotation_default
  | new_copy C => constructed (Rotation_copy C)
  | new_of_matrix C => constructed (Rotation_of_matrix C)
  | new_of_aaxis aaxis_ab numTerms => constructed (Rotation_of_aaxis aaxis_ab numTerms)
  | new_of_VectorXd aaxis_ab =>
      match Rotation_of_VectorXd aaxis_ab with
      | inl e => inl e
      | inr C => constructed C
      end
  | call_assign C => returning (fun _ => v_void) (assign C) this
  | call_matrix => returning v_matrix matrix this
  | call_vec => returning v_vector vec this
  | call_inverse => returning v_rotation inverse this
  | call_reproject force => returning (fun _ => v_void) (reproject force) this
  | call_mul_assign C_rhs => returning (fun _ => v_void) (mul_assign C_rhs) this
  | call_mul C_rhs => returning v_rotation (mul_rot C_rhs) this
  | call_div_assign C_rhs => returning (fun _ => v_void) (div_assign C_rhs) this
  | call_div C_rhs => returning v_rotation (div_rot C_rhs) this
  | call_mul_point p_a => returning v_vector (mul_point p_a) this
  end.

(** *** Sequences of compositions *)






(** *** What the public interface can produce

    The Rotations a program can hold: the results of the constructors, the
    objects the mutating member functions leave behind, and the Rotations
    the const member functions return, all on Rotations obtained the same
    way. The right-hand side of a composition is unconstrained. *)

Inductive reachable : Rotation -> Prop :=
| reach_default : reachable Rotation_default
| reach_copy (C : Rotation) :
    reachable C -> reachable (Rotation_copy C)
| reach_of_matrix (C : Matrix3d) :
    reachable (Rotation_of_matrix C)
| reach_of_aaxis (aaxis_ab : Vector3d) (numTerms : N) :
    reachable (Rotation_of_aaxis aaxis_ab numTerms)
| reach_of_VectorXd (aaxis_ab : VectorXd) (C : Rotation) :
    Rotation_of_VectorXd aaxis_ab = inr C -> reachable C
| reach_assign (this C : Rotation) :
    reachable this -> reachable C -> reachable (exec (assign C) this)
| reach_reproject (this : Rotation) (force : bool) :
    reachable this -> reachable (exec (reproject force) this)
| reach_mul_assign (this C_rhs : Rotation) :
    reachable this -> reachable (exec (mul_assign C_rhs) this)
| reach_div_assign (this C_rhs : Rotation) :
    reachable this -> reachable (exec (div_assign C_rhs) this)
| reach_inverse (this : Rotation) :
    reachable this -> reachable (eval inverse this)
| reach_mul (this C_rhs : Rotation) :
    reachable this -> reachable (eval (mul_rot C_rhs) this)
| reach_div (this C_rhs : Rotation) :
    reachable this -> reachable (eval (div_rot C_rhs) this).

(** The stored matrix is the identity, or one the drift test accepts, or
    an output of [vec2rot]. *)
Definition class_invariant (C : Matrix3d) : Prop :=
  C = Identity
  \/ det_drift C = false
  \/ exists aaxis_ab numTerms, C = vec2rot aaxis_ab numTerms.

(** The Rotations a call reads satisfy [class_invariant]: the argument of
    the copy constructor and of the assignment, the object itself for the
    other member functions; the remaining constructors read none. *)
Definition call_on_invariant (c : call) (this : Rotation) : Prop :=
  match c with
  | new_default | new_of_matrix _ | new_of_aaxis _ _ | new_of_VectorXd _ => True
  | new_copy C | call_assign C => class_invariant (C_ba_ C)
  | _ => class_invariant (C_ba_ this)
  end.

(** A returned Rotation satisfies [class_invariant]. *)
Definition value_invariant (v : value) : Prop :=
  match v with
  | v_rotation C => class_invariant (C_ba_ C)
  | _ => True
  end.

End RotationClass.
End so3.

Import Eigen so3.

(** ** The exponential and logarithmic maps, from the specification

    What the maps need beyond [Scalar]: division, square root, the
    trigonometric functions of the C library, [<], the conversion of a
    term count to [double], the small-angle tolerance and pi. *)

Class MathLib (S : Scalar) : Type := {
  s_div : scalar -> scalar -> scalar;
  s_sqrt : scalar -> scalar;
  s_sin : scalar -> scalar;
  s_cos : scalar -> scalar;
  s_acos : scalar -> scalar;
  (** [s_lt a b] is the test [a < b], [s_le a b] the test [a <= b]. *)
  s_lt : scalar -> scalar -> bool;
  s_le : scalar -> scalar -> bool;
  s_of_N : N -> scalar;
  (** the small tolerance of the angle tests ([1e-12]). *)
  s_tol : scalar;
  s_pi : scalar
}.

Notation "x / y" := (s_div x y) : scalar_scope.
Notation "x <? y" := (s_lt x y) (at level 70, no associativity) : scalar_scope.
Notation "x <=? y" := (s_le x y) (at level 70, no associativity) : scalar_scope.

Module SpecMaps.
Section Maps.
Context {S : Scalar} {M : MathLib S}.
Local Open Scope scalar_scope.

Definition s_two : scalar := s_one + s_one.
Definition s_neg (x : scalar) : scalar := s_zero - x.

Definition add (A B : Matrix3d) : Matrix3d :=
  mkMatrix3d (m00 A + m00 B) (m01 A + m01 B) (m02 A + m02 B)
             (m10 A + m10 B) (m11 A + m11 B) (m12 A + m12 B)
             (m20 A + m20 B) (m21 A + m21 B) (m22 A + m22 B).

Definition sub (A B : Matrix3d) : Matrix3d :=
  mkMatrix3d (m00 A - m00 B) (m01 A - m01 B) (m02 A - m02 B)
             (m10 A - m10 B) (m11 A - m11 B) (m12 A - m12 B)
             (m20 A - m20 B) (m21 A - m21 B) (m22 A - m22 B).

(** [k * A] and [A / k] for a scalar [k]. *)
Definition scale (k : scalar) (A : Matrix3d) : Matrix3d :=
  mkMatrix3d (k * m00 A) (k * m01 A) (k * m02 A)
             (k * m10 A) (k * m11 A) (k * m12 A)
             (k * m20 A) (k * m21 A) (k * m22 A).

Definition over (A : Matrix3d) (k : scalar) : Matrix3d :=
  mkMatrix3d (m00 A / k) (m01 A / k) (m02 A / k)
             (m10 A / k) (m11 A / k) (m12 A / k)
             (m20 A / k) (m21 A / k) (m22 A / k).

Definition scale_vec (k : scalar) (v : Vector3d) : Vector3d :=
  mkVector3d (k * vx v) (k * vy v) (k * vz v).

Definition over_vec (v : Vector3d) (k : scalar) : Vector3d :=
  mkVector3d (vx v / k) (vy v / k) (vz v / k).

Definition norm (v : Vector3d) : scalar :=
  s_sqrt (vx v * vx v + vy v * vy v + vz v * vz v).

Definition trace (A : Matrix3d) : scalar := m00 A + m11 A + m22 A.

(** [a * a^T] *)
Definition outer (a : Vector3d) : Matrix3d :=
  mkMatrix3d (vx a * vx a) (vx a * vy a) (vx a * vz a)
             (vy a * vx a) (vy a * vy a) (vy a * vz a)
             (vz a * vx a) (vz a * vy a) (vz a * vz a).

(** Modelled from the spec: the hat operator, which maps a 3-vector to its
    skew-symmetric cross-product matrix ([Operations.hpp] is not among the
    sources). *)
Definition hat (v : Vector3d) : Matrix3d :=
  mkMatrix3d s_zero (s_neg (vz v)) (vy v)
             (vz v) s_zero (s_neg (vx v))
             (s_neg (vy v)) (vx v) s_zero.

(** Modelled from the spec: the vex operator, the inverse of [hat]. *)
Definition vex (A : Matrix3d) : Vector3d :=
  mkVector3d (m21 A) (m02 A) (m10 A).

(** Modelled from the spec: the closed form of [exponentialMap]
    (Rodrigues' formula). With [theta] the norm of [phi]: the identity
    when [theta] is below the tolerance, otherwise
    [cos theta * I + (1 - cos theta) * a * a^T + sin theta * a^] for the
    unit axis [a = phi / theta]. *)
Definition rodrigues (phi : Vector3d) : Matrix3d :=
  let theta := norm phi in
  if theta <? s_tol then Identity
  else
    let a := over_vec phi theta in
    add (add (scale (s_cos theta) Identity)
             (scale (s_one - s_cos theta) (outer a)))
        (scale (s_sin theta) (hat a)).

Fixpoint power (A : Matrix3d) (k : nat) : Matrix3d :=
  match k with
  | O => Identity
  | Datatypes.S k' => mul (power A k') A
  end.

(** Modelled from the spec: the truncated power series of
    [exponentialMap], [I + phi^ + phi^^2/2! + ... + phi^^n/n!]. *)
Fixpoint series (phi : Vector3d) (n : nat) : Matrix3d :=
  match n with
  | O => Identity
  | Datatypes.S n' =>
      add (series phi n')
          (over (power (hat phi) n) (s_of_N (N.of_nat (fact n))))
  end.

(** Modelled from the spec: [exponentialMap(phi, numTerms)], the closed
    form when [numTerms == 0] and the truncated series otherwise
    ([vec2rot] of [Operations.hpp], absent from the sources). *)
Definition exponentialMap (phi : Vector3d) (numTerms : N) : Matrix3d :=
  if (numTerms =? 0)%N then rodrigues phi
  else series phi (N.to_nat numTerms).

Definition clamp (lo hi x : scalar) : scalar :=
  if x <? lo then lo else if hi <? x then hi else x.

(** Modelled from the spec: the near-pi branch of [logarithmicMap]. The
    unit axis is read off [(C + C^T)/2 - cos theta * I], which for a
    rotation is [(1 - cos theta) * a * a^T]: the diagonal entry of largest
    magnitude gives the first component, the off-diagonal entries of its
    row the other two and their signs. On ties the earlier entry wins (the
    specification leaves the tie-break open). *)
Definition near_pi_axis (C : Matrix3d) (cos_theta : scalar) : Vector3d :=
  let B := sub (over (add C (transpose C)) s_two) (scale cos_theta Identity) in
  let k := s_one - cos_theta in
  let d0 := s_fabs (m00 B) in
  let d1 := s_fabs (m11 B) in
  let d2 := s_fabs (m22 B) in
  if negb (d0 <? d1) && negb (d0 <? d2) then
    let a0 := s_sqrt (m00 B / k) in
    mkVector3d a0 (m01 B / (k * a0)) (m02 B / (k * a0))
  else if negb (d1 <? d2) then
    let a1 := s_sqrt (m11 B / k) in
    mkVector3d (m10 B / (k * a1)) a1 (m12 B / (k * a1))
  else
    let a2 := s_sqrt (m22 B / k) in
    mkVector3d (m20 B / (k * a2)) (m21 B / (k * a2)) a2.

(** Modelled from the spec: [logarithmicMap(C)] ([rot2vec] of
    [Operations.hpp], absent from the sources).
    - [cos theta = (trace C - 1) / 2], clamped to [-1, 1];
    - near zero: [vex ((C - C^T) / 2)];
    - near pi: the axis of [near_pi_axis], scaled by [theta];
    - otherwise [theta / (2 sin theta) * vex (C - C^T)]. *)
Definition logarithmicMap (C : Matrix3d) : Vector3d :=
  let cos_theta := clamp (s_neg s_one) s_one ((trace C - s_one) / s_two) in
  let theta := s_acos cos_theta in
  if theta <? s_tol then vex (over (sub C (transpose C)) s_two)
  else if (s_pi - s_tol) <? theta then
    scale_vec theta (near_pi_axis C cos_theta)
  else
    scale_vec (theta / (s_two * s_sin theta)) (vex (sub C (transpose C))).

End Maps.

(** The maps of the specification as the [Operations] the class calls. *)
Definition spec_Operations (S : Scalar) (M : MathLib S) : Operations S := {|
  vec2rot := exponentialMap;
  rot2vec := logarithmicMap
|}.

End SpecMaps.

(** ** Validity of a stored matrix *)

Section Validity.
Context {S : Scalar}.

(** [C * C^T = I] and [C^T * C = I], computed in the scalar arithmetic. *)
Definition orthonormal (C : Matrix3d) : Prop :=
  mul C (transpose C) = Identity /\ mul (transpose C) C = Identity.

Context {M : MathLib S}.
Local Open Scope scalar_scope.

(** Eigen's [A.norm()], the Frobenius norm. *)
Definition frobenius (A : Matrix3d) : scalar :=
  s_sqrt (m00 A * m00 A + m01 A * m01 A + m02 A * m02 A
        + m10 A * m10 A + m11 A * m11 A + m12 A * m12 A
        + m20 A * m20 A + m21 A * m21 A + m22 A * m22 A).

(** The norm of [C^T * C - I]. *)
Definition orthonormality_error (C : Matrix3d) : scalar :=
  frobenius (SpecMaps.sub (mul (transpose C) C) Identity).

(** Membership in SO(3) up to the tolerance [1e-6]: the orthonormality
    error is below [1e-6] and the determinant is within [1e-6] of one. *)
Definition so3_within_tolerance (C : Matrix3d) : bool :=
  (orthonormality_error C <? s_1e_6) && negb (det_drift C).

Definition entries (A : Matrix3d) : list scalar :=
  [m00 A; m01 A; m02 A; m10 A; m11 A; m12 A; m20 A; m21 A; m22 A].

(** Modelled from the spec: the tolerance-based comparison of matrices
    ([lgmath::common::nearEqual], declared in [CommonMath.hpp] with the
    default tolerance [1e-6]; its implementation is not among the sources):
    every entry of [A - B] is at most [tol] in magnitude (a NaN entry
    is not). *)
Definition nearEqual (A B : Matrix3d) (tol : scalar) : bool :=
  forallb (fun d => s_fabs d <=? tol) (entries (SpecMaps.sub A B)).


End Validity.

(** ** The scalar as IEEE binary64

    [double] on Rocq's primitive floats. The C library's [sin], [cos] and
    [acos] have no primitive counterpart and stay parameters of the
    instance; a term count is converted to the nearest [double]. *)

Module Binary64.
Local Open Scope float_scope.

Definition binary64 : Scalar := {|
  scalar := float;
  s_zero := 0;
  s_one := 1;
  s_add := PrimFloat.add;
  s_sub := PrimFloat.sub;
  s_mul := PrimFloat.mul;
  s_fabs := PrimFloat.abs;
  s_gt := fun a b => PrimFloat.ltb b a;
  s_1e_6 := 1e-6
|}.

Definition binary64_math (libm_sin libm_cos libm_acos : float -> float)
  : MathLib binary64 :=
  @Build_MathLib binary64
    PrimFloat.div PrimFloat.sqrt libm_sin libm_cos libm_acos
    PrimFloat.ltb PrimFloat.leb
    (fun n => SF2Prim (binary_normalize prec emax (Z.of_N n) 0 false))
    1e-12
    3.141592653589793.

(** A shear: determinant one, not orthonormal. *)
Definition shear : @Matrix3d binary64 :=
  mkMatrix3d (S := binary64) 1 1 0
                             0 1 0
                             0 0 1.

(** The quarter turn about the z axis. *)
Definition quarter_turn : @Matrix3d binary64 :=
  mkMatrix3d (S := binary64) 0 (-1) 0
                             1 0    0
                             0 0    1.

Definition e_z : @Vector3d binary64 := mkVector3d (S := binary64) 0 0 1.

(** [I + e_z^], the series of [e_z] truncated after one term. *)
Definition unit_plus_hat : @Matrix3d binary64 :=
  mkMatrix3d (S := binary64) 1 (-1) 0
                             1 1    0
                             0 0    1.

(** A turn about x followed by a turn about z, rounded to binary64: its
    products with its transpose are the identity up to [2e-16] only. *)
Definition tilted_turn : @Matrix3d binary64 :=
  mkMatrix3d (S := binary64)
    0.59999999999999998 (-0.7960033322224207) 0.079866733317462524
    0.80000000000000004 0.59700249916681547   (-0.059900049988096893)
    0                   0.099833416646828155  0.99500416527802582.




(** A matrix with a NaN among its entries, and one such matrix. *)
Definition has_nan (C : @Matrix3d binary64) : Prop := In nan (entries C).

Definition poisoned : @Matrix3d binary64 :=
  mkMatrix3d (S := binary64) nan 0 0
                             0   1 0
                             0   0 1.

End Binary64.

(** ** [namespace lgmath::constants] of [CommonMath.hpp], in binary64 *)

Module constants.
Local Open Scope float_scope.

Definition TWO_PI : float := 6.283185307179586.
Definition PI : float := 3.141592653589793.
Definition PI_DIV_TWO : float := 1.570796326794897.
Definition PI_DIV_FOUR : float := 0.785398163397448.
Definition ONE_DIV_PI : float := 0.318309886183791.
Definition ONE_DIV_TWO_PI : float := 0.159154943091895.
Definition DEG2RAD : float := 0.017453292519943.
Definition RAD2DEG : float := 57.295779513082323.

End constants.

(** ** The scalar as a real number

    Exact arithmetic, with the trigonometric functions of the reals. *)

Module Ideal.
Local Open Scope R_scope.

Definition Rgtb (a b : R) : bool := if Rlt_dec b a then true else false.
Definition Rleb (a b : R) : bool := if Rle_dec a b then true else false.

Definition ideal : Scalar := {|
  scalar := R;
  s_zero := 0;
  s_one := 1;
  s_add := Rplus;
  s_sub := Rminus;
  s_mul := Rmult;
  s_fabs := Rabs;
  s_gt := Rgtb;
  s_1e_6 := 1 / 1000000
|}.

Canonical Structure ideal.

Definition ideal_math : MathLib ideal :=
  @Build_MathLib ideal
    Rdiv sqrt sin cos acos
    (fun a b => Rgtb b a) Rleb
    (fun n => IZR (Z.of_N n))
    (1 / 1000000000000)
    PI.

Definition ideal_Operations : Operations ideal :=
  SpecMaps.spec_Operations ideal_math.

(** SO(3): [C^T * C = I] and [det C = 1]. *)
Definition SO3 (C : @Matrix3d ideal) : Prop :=
  mul (transpose C) C = Identity /\ determinant C = 1.

Definition quarter_turn : @Matrix3d ideal :=
  mkMatrix3d (S := ideal) 0 (-1) 0
                          1 0    0
                          0 0    1.

Definition e_z : @Vector3d ideal := mkVector3d (S := ideal) 0 0 1.

(** [I + e_z^], the series of [e_z] truncated after one term. *)
Definition unit_plus_hat : @Matrix3d ideal :=
  mkMatrix3d (S := ideal) 1 (-1) 0
                          1 1    0
                          0 0    1.

(** The rotation about the z axis with cosine [c] and sine [s]. *)
Definition turn_z (c s : R) : @Matrix3d ideal :=
  mkMatrix3d (S := ideal) c (- s) 0
                          s c     0
                          0 0     1.




End Ideal.

(** * Properties of the class, for every scalar arithmetic *)

Section Structural.
Context {S : Scalar} {Ops : Operations S}.

Lemma Rotation_eta (R : Rotation) : mkRotation (C_ba_ R) = R.
Proof. destruct R; reflexivity. Qed.

Lemma reproject_run (force : bool) (this : Rotation) :
  reproject force this =
  (tt, if force || det_drift (C_ba_ this)
       then mkRotation (reprojection (C_ba_ this))
       else this).
Proof.
  unfold reproject, bind, get_C, set_C, ret, reprojection.
  destruct (force || det_drift (C_ba_ this)); reflexivity.
Qed.

Lemma reproject_exec (force : bool) (this : Rotation) :
  exec (reproject force) this =
  if force || det_drift (C_ba_ this)
  then mkRotation (reprojection (C_ba_ this))
  else this.
Proof. unfold exec; rewrite reproject_run; reflexivity. Qed.

Lemma reproject_false_accepted (C : Matrix3d) :
  det_drift C = false -> exec (reproject false) (mkRotation C) = mkRotation C.
Proof. intros H. rewrite reproject_exec. cbn [C_ba_ orb]. now rewrite H. Qed.

Lemma reproject_false_drifted (C : Matrix3d) :
  det_drift C = true ->
  exec (reproject false) (mkRotation C) = mkRotation (reprojection C).
Proof. intros H. rewrite reproject_exec. cbn [C_ba_ orb]. now rewrite H. Qed.

Lemma Rotation_of_matrix_accepted (C : Matrix3d) :
  det_drift C = false -> Rotation_of_matrix C = mkRotation C.
Proof. apply reproject_false_accepted. Qed.

Lemma mul_assign_exec (A B : Rotation) :
  exec (mul_assign B) A = Rotation_of_matrix (mul (C_ba_ A) (C_ba_ B)).
Proof. reflexivity. Qed.

Lemma div_assign_exec (A B : Rotation) :
  exec (div_assign B) A = Rotation_of_matrix (mul (C_ba_ A) (transpose (C_ba_ B))).
Proof. reflexivity. Qed.

Lemma mul_rot_run (A B : Rotation) :
  mul_rot B A = (Rotation_of_matrix (mul (C_ba_ A) (C_ba_ B)), A).
Proof. reflexivity. Qed.

Lemma div_rot_run (A B : Rotation) :
  div_rot B A = (Rotation_of_matrix (mul (C_ba_ A) (transpose (C_ba_ B))), A).
Proof. reflexivity. Qed.

Lemma inverse_run (R : Rotation) :
  inverse R = (Rotation_of_matrix (transpose (C_ba_ R)), R).
Proof. reflexivity. Qed.

Lemma mul_rot_eval (A B : Rotation) :
  eval (mul_rot B) A = Rotation_of_matrix (mul (C_ba_ A) (C_ba_ B)).
Proof. reflexivity. Qed.

Lemma div_rot_eval (A B : Rotation) :
  eval (div_rot B) A = Rotation_of_matrix (mul (C_ba_ A) (transpose (C_ba_ B))).
Proof. reflexivity. Qed.

Lemma inverse_eval (R : Rotation) :
  eval inverse R = Rotation_of_matrix (transpose (C_ba_ R)).
Proof. reflexivity. Qed.

Lemma Rotation_of_matrix_drifted (C : Matrix3d) :
  det_drift C = true -> Rotation_of_matrix C = mkRotation (reprojection C).
Proof. apply reproject_false_drifted. Qed.

Lemma transpose_involutive (C : Matrix3d) : transpose (transpose C) = C.
Proof. destruct C; reflexivity. Qed.

Lemma Rotation_of_matrix_post (C : Matrix3d) :
  accepted_or_reprojected (C_ba_ (Rotation_of_matrix C)).
Proof.
  unfold Rotation_of_matrix. rewrite reproject_exec. cbn [C_ba_ orb].
  destruct (det_drift C) eqn:E; cbn [C_ba_].
  - right. now exists C.
  - now left.
Qed.

(** With an accepted transpose, [inverse] stores the transpose itself. *)
Lemma inverse_accepted (R : Rotation) :
  det_drift (transpose (C_ba_ R)) = false ->
  eval inverse R = mkRotation (transpose (C_ba_ R)).
Proof. intros H. rewrite inverse_eval. now apply Rotation_of_matrix_accepted. Qed.

Lemma div_rot_is_mul_rot_inverse (A B : Rotation) :
  det_drift (transpose (C_ba_ B)) = false ->
  eval (div_rot B) A = eval (mul_rot (eval inverse B)) A.
Proof.
  intros H. rewrite div_rot_eval, mul_rot_eval, (inverse_accepted B H).
  reflexivity.
Qed.




Lemma accepted_or_reprojected_invariant (C : Matrix3d) :
  accepted_or_reprojected C -> class_invariant C.
Proof.
  intros [H | [C0 H]]; [right; left; exact H|].
  right; right. exists (rot2vec C0), 0%N. exact H.
Qed.

Lemma Rotation_of_matrix_invariant (C : Matrix3d) :
  class_invariant (C_ba_ (Rotation_of_matrix C)).
Proof. apply accepted_or_reprojected_invariant, Rotation_of_matrix_post. Qed.

End Structural.

(** * Facts about binary64 *)

Module Binary64Facts.
Import Binary64.

Lemma SFcompare_swap (a b : spec_float) :
  SFcompare b a = option_map CompOpp (SFcompare a b).
Proof.
  destruct a as [sa | sa | | sa ma ea], b as [sb | sb | | sb mb eb]; cbn;
    try reflexivity;
    try (destruct sa; reflexivity); try (destruct sb; reflexivity);
    try (destruct sa, sb; reflexivity).
  destruct sa, sb; cbn; try reflexivity;
    rewrite (Z.compare_antisym ea eb);
    destruct (ea ?= eb)%Z; cbn; try reflexivity; f_equal.
  - f_equal. symmetry. apply (Pos.compare_cont_antisym ma mb Eq).
  - symmetry. apply (Pos.compare_cont_antisym ma mb Eq).
Qed.

Lemma leb_not_gt (x y : float) : (x <=? y)%float = true -> (y <? x)%float = false.
Proof.
  rewrite leb_spec, ltb_spec. unfold SFleb, SFltb.
  rewrite (SFcompare_swap (Prim2SF x) (Prim2SF y)).
  destruct (SFcompare (Prim2SF x) (Prim2SF y)) as [[ | | ] | ]; cbn; congruence.
Qed.



(** In binary64 the drift test does not fire when [|1 - det C| <= 1e-6]. *)
Lemma leb_accepted (C : @Matrix3d binary64) :
  (abs (1 - determinant C) <=? 1e-6)%float = true -> det_drift C = false.
Proof. apply leb_not_gt. Qed.

End Binary64Facts.

(** * Facts about exact arithmetic *)

Module IdealFacts.
Import Ideal.
Local Open Scope R_scope.

Lemma Rgtb_true (a b : R) : b < a -> Rgtb a b = true.
Proof. intros H. unfold Rgtb. destruct (Rlt_dec b a); [reflexivity|contradiction]. Qed.

Lemma Rgtb_false (a b : R) : a <= b -> Rgtb a b = false.
Proof. intros H. unfold Rgtb. destruct (Rlt_dec b a); [lra|reflexivity]. Qed.


Lemma Rleb_false (a b : R) : b < a -> Rleb a b = false.
Proof. intros H. unfold Rleb. destruct (Rle_dec a b); [lra|reflexivity]. Qed.


Lemma Rgtb_false_iff (a b : R) : Rgtb a b = false <-> a <= b.
Proof. unfold Rgtb. destruct (Rlt_dec b a); split; intros; try discriminate; try reflexivity; lra. Qed.

(** Reduces the operations of the class and of Eigen at the reals to real
    arithmetic. *)
Ltac to_reals :=
  cbv [mul transpose determinant dot3 Identity mul_vec
       m00 m01 m02 m10 m11 m12 m20 m21 m22 vx vy vz
       SpecMaps.add SpecMaps.sub SpecMaps.scale SpecMaps.over
       SpecMaps.scale_vec SpecMaps.over_vec SpecMaps.trace SpecMaps.outer
       SpecMaps.hat SpecMaps.vex SpecMaps.s_two SpecMaps.s_neg
       s_add s_sub s_mul s_zero s_one s_fabs s_gt s_1e_6 scalar ideal
       s_div s_sqrt s_sin s_cos s_acos s_lt s_le s_of_N s_tol s_pi
       ideal_math] in *.

Ltac mat_ring :=
  repeat match goal with
         | A : Matrix3d |- _ => destruct A
         | v : Vector3d |- _ => destruct v
         end;
  to_reals; f_equal; ring.


Lemma mul_vec_mul (A B : @Matrix3d ideal) (p : Vector3d) :
  mul_vec (mul A B) p = mul_vec A (mul_vec B p).
Proof. mat_ring. Qed.

Lemma det_drift_ideal (C : @Matrix3d ideal) :
  det_drift C = false <-> Rabs (1 - determinant C) <= 1 / 1000000.
Proof. unfold det_drift. apply Rgtb_false_iff. Qed.


Lemma SO3_accepted (C : @Matrix3d ideal) : SO3 C -> det_drift C = false.
Proof.
  intros [_ HD]. apply det_drift_ideal. rewrite HD.
  replace (1 - 1) with 0 by ring. rewrite Rabs_R0. lra.
Qed.


(** An exact member of SO(3) meets both tolerances. *)
Lemma SO3_within_tolerance (C : @Matrix3d ideal) :
  SO3 C -> so3_within_tolerance (M := ideal_math) C = true.
Proof.
  intros H. unfold so3_within_tolerance.
  rewrite (SO3_accepted H). cbn [negb]. rewrite andb_true_r.
  unfold orthonormality_error. destruct H as [-> _].
  unfold frobenius. to_reals.
  replace (sqrt _) with 0; [apply Rgtb_true; lra | ].
  symmetry. rewrite <- sqrt_0. f_equal. ring.
Qed.

End IdealFacts.

(** * The maps of the specification, evaluated in exact arithmetic *)

Module IdealRun.
Import Ideal IdealFacts.
Local Open Scope R_scope.
#[local] Existing Instance ideal_math.
#[local] Existing Instance ideal_Operations.

Lemma clamp_inside (x : R) :
  -1 <= x <= 1 -> SpecMaps.clamp (SpecMaps.s_neg s_one) s_one x = x.
Proof.
  intros [lo hi]. unfold SpecMaps.clamp. to_reals.
  rewrite (Rgtb_false (a := 0 - 1) (b := x)) by lra.
  rewrite (Rgtb_false (a := x) (b := 1)) by lra.
  reflexivity.
Qed.

(** At trace three the logarithm takes the near-zero branch. *)
Lemma logarithmicMap_trace_3 (C : @Matrix3d ideal) :
  SpecMaps.trace C = 3 ->
  SpecMaps.logarithmicMap C =
  SpecMaps.vex (SpecMaps.over (SpecMaps.sub C (transpose C)) SpecMaps.s_two).
Proof.
  intros H. unfold SpecMaps.logarithmicMap. rewrite H.
  replace ((3 - s_one) / SpecMaps.s_two)%s with 1 by (to_reals; field).
  rewrite clamp_inside by lra.
  change (s_acos 1) with (acos 1). rewrite acos_1.
  change (0 <? s_tol)%s with (Rgtb (1 / 1000000000000) 0).
  rewrite Rgtb_true by lra. reflexivity.
Qed.

Lemma log_unit_plus_hat : SpecMaps.logarithmicMap unit_plus_hat = e_z.
Proof.
  rewrite logarithmicMap_trace_3 by (cbv [unit_plus_hat]; to_reals; ring).
  cbv [unit_plus_hat e_z]. to_reals. f_equal; field.
Qed.

Lemma log_unit_minus_hat :
  SpecMaps.logarithmicMap (transpose unit_plus_hat) = mkVector3d (S := ideal) 0 0 (-1).
Proof.
  rewrite logarithmicMap_trace_3 by (cbv [unit_plus_hat]; to_reals; ring).
  cbv [unit_plus_hat]. to_reals. f_equal; field.
Qed.

Lemma series_e_z_1 : SpecMaps.exponentialMap e_z 1 = unit_plus_hat.
Proof.
  cbv [SpecMaps.exponentialMap N.eqb N.to_nat Pos.to_nat Pos.iter_op Nat.add
       SpecMaps.series SpecMaps.power fact Nat.mul N.of_nat Pos.of_succ_nat
       e_z unit_plus_hat].
  to_reals. cbv [Z.of_N]. f_equal; field.
Qed.

(** Rodrigues' formula for a unit vector along the z axis. *)
Lemma rodrigues_along_z (z : R) :
  z * z = 1 ->
  SpecMaps.exponentialMap (mkVector3d (S := ideal) 0 0 z) 0 = turn_z (cos 1) (z * sin 1).
Proof.
  intros Hz. cbv [SpecMaps.exponentialMap N.eqb SpecMaps.rodrigues SpecMaps.norm].
  replace (s_sqrt _) with 1.
  2:{ to_reals. replace (0 * 0 + 0 * 0 + z * z) with 1 by lra. now rewrite sqrt_1. }
  change (1 <? s_tol)%s with (Rgtb (1 / 1000000000000) 1).
  rewrite Rgtb_false by lra.
  cbv [turn_z]. to_reals. f_equal; try field.
  replace (z / 1 * (z / 1)) with (z * z) by field. rewrite Hz. ring.
Qed.

Lemma sin_1_above_cos_1 : cos 1 + 1 / 4 < sin 1.
Proof.
  assert (Hc : cos 1 <= 1 - 1 / 2 + 1 / 24).
  { destruct (pre_cos_bound 1 0) as [_ Hc]; [lra | lra | ].
    unfold cos_approx, cos_term in Hc. simpl in Hc.
    eapply Rle_trans; [exact Hc | right; field]. }
  assert (Hs : 1 - 1 / 6 <= sin 1).
  { destruct (pre_sin_bound 1 0) as [Hs _]; [lra | lra | ].
    unfold sin_approx, sin_term in Hs. simpl in Hs.
    eapply Rle_trans; [ | exact Hs]. right; field. }
  lra.
Qed.

Lemma det_drift_unit_plus_hat : det_drift unit_plus_hat = true.
Proof.
  unfold det_drift. cbv [unit_plus_hat]. to_reals. apply Rgtb_true.
  unfold Rabs. destruct (Rcase_abs _); lra.
Qed.

Lemma det_drift_unit_minus_hat : det_drift (transpose unit_plus_hat) = true.
Proof.
  unfold det_drift. cbv [unit_plus_hat]. to_reals. apply Rgtb_true.
  unfold Rabs. destruct (Rcase_abs _); lra.
Qed.

Lemma SO3_quarter_turn : SO3 quarter_turn.
Proof. split; cbv [quarter_turn]; to_reals; [f_equal|]; ring. Qed.

Lemma SO3_turn_z (c s : R) : c * c + s * s = 1 -> SO3 (turn_z c s).
Proof.
  intros H. split; cbv [turn_z]; to_reals; [f_equal | ]; nra.
Qed.

Lemma cos2_sin2_1 : cos 1 * cos 1 + sin 1 * sin 1 = 1.
Proof. generalize (sin2_cos2 1). unfold Rsqr. lra. Qed.

(** [A / B] for the quarter turn [A] and [B = I + e_z^]. *)
Lemma div_example :
  C_ba_ (eval (div_rot (Rotation_of_aaxis e_z 1)) (Rotation_of_matrix quarter_turn))
  = turn_z (cos 1) (sin 1).
Proof.
  rewrite (Rotation_of_matrix_accepted quarter_turn) by apply SO3_accepted, SO3_quarter_turn.
  rewrite div_rot_eval. cbn [C_ba_ Rotation_of_aaxis].
  change (vec2rot e_z 1) with (SpecMaps.exponentialMap e_z 1).
  rewrite series_e_z_1.
  replace (mul quarter_turn (transpose unit_plus_hat)) with unit_plus_hat
    by (cbv [quarter_turn unit_plus_hat]; to_reals; f_equal; ring).
  rewrite Rotation_of_matrix_drifted by apply det_drift_unit_plus_hat.
  cbn [C_ba_]. unfold reprojection.
  change (rot2vec unit_plus_hat) with (SpecMaps.logarithmicMap unit_plus_hat).
  rewrite log_unit_plus_hat.
  change (vec2rot e_z 0) with (SpecMaps.exponentialMap e_z 0).
  unfold e_z. rewrite rodrigues_along_z by ring.
  f_equal. ring.
Qed.

(** [A * B.inverse()] for the same [A] and [B]. *)
Lemma mul_inverse_example :
  C_ba_ (eval (mul_rot (eval inverse (Rotation_of_aaxis e_z 1)))
              (Rotation_of_matrix quarter_turn))
  = turn_z (sin 1) (cos 1).
Proof.
  rewrite (Rotation_of_matrix_accepted quarter_turn) by apply SO3_accepted, SO3_quarter_turn.
  rewrite inverse_eval. cbn [C_ba_ Rotation_of_aaxis].
  change (vec2rot e_z 1) with (SpecMaps.exponentialMap e_z 1).
  rewrite series_e_z_1.
  rewrite (Rotation_of_matrix_drifted (transpose unit_plus_hat))
    by apply det_drift_unit_minus_hat.
  unfold reprojection.
  change (rot2vec (transpose unit_plus_hat))
    with (SpecMaps.logarithmicMap (transpose unit_plus_hat)).
  rewrite log_unit_minus_hat.
  change (vec2rot ?v 0) with (SpecMaps.exponentialMap v 0).
  rewrite rodrigues_along_z by ring.
  rewrite mul_rot_eval. cbn [C_ba_].
  replace (mul quarter_turn (turn_z (cos 1) (-1 * sin 1)))
    with (turn_z (sin 1) (cos 1))
    by (cbv [quarter_turn turn_z]; to_reals; f_equal; ring).
  rewrite Rotation_of_matrix_accepted; [reflexivity | ].
  apply SO3_accepted, SO3_turn_z. generalize cos2_sin2_1. lra.
Qed.

Lemma examples_not_near :
  nearEqual (turn_z (cos 1) (sin 1)) (turn_z (sin 1) (cos 1)) s_1e_6 = false.
Proof.
  unfold nearEqual, entries. cbv [turn_z]. to_reals. cbn [forallb].
  rewrite (Rleb_false (a := Rabs (cos 1 - sin 1))); [reflexivity | ].
  rewrite Rabs_left by (generalize sin_1_above_cos_1; lra).
  generalize sin_1_above_cos_1; lra.
Qed.
End IdealRun.

(** * The round trips of the maps and the inverse, in exact arithmetic *)

Module IdealMaps.
Import Ideal IdealFacts.
Local Open Scope R_scope.
#[local] Existing Instance ideal_math.

(** ** The logarithm after the exponential *)

















(** ** The exponential after the logarithm *)









(** A member of SO(3) by its entries, with [t] the half of its trace less
    one: the cosine of its rotation angle. *)
Section RoundTrip.
Variables a b c d e f g h i t : R.
Hypothesis c00 : a * a + d * d + g * g = 1.
Hypothesis c11 : b * b + e * e + h * h = 1.
Hypothesis c22 : c * c + f * f + i * i = 1.
Hypothesis c01 : a * b + d * e + g * h = 0.
Hypothesis c02 : a * c + d * f + g * i = 0.
Hypothesis c12 : b * c + e * f + h * i = 0.
Hypothesis det1 :
  a * (e * i - f * h) - b * (d * i - f * g) + c * (d * h - e * g) = 1.
Hypothesis Ht : 2 * t = a + e + i - 1.

Local Abbreviation C := (mkMatrix3d (S := ideal) a b c d e f g h i).















End RoundTrip.



(** ** Reprojection of a symmetric matrix *)




(** ** Membership in SO(3) up to the tolerance *)


(** A matrix within both tolerances, by its entries. *)
Section WithinTolerance.
Variables a b c d e f g h i : R.
Local Abbreviation C := (mkMatrix3d (S := ideal) a b c d e f g h i).
Hypothesis valid : so3_within_tolerance C = true.




End WithinTolerance.









End IdealMaps.

(** * The claims that hold for every scalar arithmetic *)

(** C3. For every Rotation state [C] and every boolean [force],
    [reproject(force)] replaces the stored matrix with
    [vec2rot(rot2vec(C))] if and only if [force] is true or
    [fabs(1.0 - det C) > 1e-6]; when [force] is false and the determinant
    test does not fire, the object is left exactly as it was. The first
    conjunct is the whole behaviour of the call, the other two are its two
    directions. *)
Theorem reproject_replaces_iff_forced_or_drifted
  {S : Scalar} {Ops : Operations S} (this : Rotation) (force : bool) :
  reproject force this =
    (tt, if force || (s_fabs (s_one - determinant (C_ba_ this)) >? s_1e_6)%s
         then mkRotation (vec2rot (rot2vec (C_ba_ this)) 0%N)
         else this)
  /\ (force = true \/
      (s_fabs (s_one - determinant (C_ba_ this)) >? s_1e_6)%s = true ->
      C_ba_ (exec (reproject force) this) = vec2rot (rot2vec (C_ba_ this)) 0%N)
  /\ (force = false ->
      (s_fabs (s_one - determinant (C_ba_ this)) >? s_1e_6)%s = false ->
      exec (reproject force) this = this).
Proof.
  fold (det_drift (C_ba_ this)). fold (reprojection (C_ba_ this)).
  split; [apply reproject_run|].
  rewrite reproject_exec. split.
  - intros [-> | H]; [reflexivity|].
    rewrite H, orb_true_r. reflexivity.
  - intros -> H. now rewrite H.
Qed.

(** C5, as the code has it. The constructor from a [VectorXd] throws (the
    specification's [InvalidDimension], [std::invalid_argument] in the
    code) if and only if the vector does not have exactly three rows; it
    throws before anything is computed, so the outcome is the same
    whatever the maps [vec2rot] and [rot2vec] are; with three rows it is
    the axis-angle constructor. No other call of the public interface
    throws: a call throws exactly when it is that constructor on a vector
    that does not have three rows, and what it throws is that exception.
    A call that returns promises no more of the matrix it leaves in the
    object, or returns in a Rotation, than [class_invariant]: the
    identity, or a matrix that the drift test accepts, or an output of
    [vec2rot], given that the Rotations it read were such. *)
Theorem invalid_dimension_is_the_only_failure {S : Scalar} :
  (forall (Ops : Operations S) (v : VectorXd),
     (exists e, Rotation_of_VectorXd v = inl e) <-> rows v <> 3%N)
  /\ (forall (Ops : Operations S) (v : VectorXd),
        rows v <> 3%N ->
        Rotation_of_VectorXd v = inl (invalid_argument not_dimension_3))
  /\ (forall (Ops Ops' : Operations S) (v : VectorXd),
        rows v <> 3%N ->
        @Rotation_of_VectorXd S Ops v = @Rotation_of_VectorXd S Ops' v)
  /\ (forall (Ops : Operations S) (v : VectorXd),
        rows v = 3%N ->
        Rotation_of_VectorXd v = inr (Rotation_of_aaxis (head3 v) 0%N))
  /\ (forall (Ops : Operations S) (c : call) (this : Rotation) (e : exception),
        invoke c this = inl e <->
        exists v, c = new_of_VectorXd v /\ rows v <> 3%N
                  /\ e = invalid_argument not_dimension_3)
  /\ (forall (Ops : Operations S) (c : call) (this this' : Rotation) (v : value),
        invoke c this = inr (v, this') ->
        call_on_invariant c this ->
        class_invariant (C_ba_ this') /\ value_invariant v).
Proof.
  assert (thrown : forall (Ops : Operations S) (v : VectorXd),
            rows v <> 3%N ->
            Rotation_of_VectorXd v = inl (invalid_argument not_dimension_3)).
  { intros Ops v H. unfold Rotation_of_VectorXd.
    apply N.eqb_neq in H. now rewrite H. }
  assert (built : forall (Ops : Operations S) (v : VectorXd),
            rows v = 3%N ->
            Rotation_of_VectorXd v = inr (Rotation_of_aaxis (head3 v) 0%N)).
  { intros Ops v H. unfold Rotation_of_VectorXd.
    apply N.eqb_eq in H. now rewrite H. }
  split; [ | split; [ | split; [ | split; [ | split]]]].
  - intros Ops v. split.
    + intros [e He] H3. rewrite (built Ops v H3) in He. discriminate.
    + intros H. eexists. now apply thrown.
  - apply thrown.
  - intros Ops Ops' v H. now rewrite !thrown.
  - apply built.
  - intros Ops c this e. split.
    + intros H.
      destruct c; cbn in H; try discriminate;
        try (unfold returning in H;
             match type of H with
             | (let (_, _) := ?m in _) = _ => destruct m; discriminate
             end).
      exists aaxis_ab. split; [reflexivity|].
      destruct (N.eq_dec (rows aaxis_ab) 3) as [H3 | H3].
      * rewrite (built Ops aaxis_ab H3) in H. discriminate.
      * split; [exact H3|]. rewrite (thrown Ops aaxis_ab H3) in H.
        now injection H as <-.
    + intros (v & -> & H3 & ->). cbn [invoke]. now rewrite (thrown Ops v H3).
  - intros Ops c this this' v H Hinv.
    assert (Hid : class_invariant (C_ba_ (@Rotation_default S))) by now left.
    assert (Hexp : forall phi n, class_invariant (C_ba_ (Rotation_of_aaxis phi n))).
    { intros phi n. right; right. now exists phi, n. }
    destruct c; cbn [invoke call_on_invariant] in H, Hinv;
      unfold constructed, returning in H.
    + injection H as <- <-. split; [exact Hid | exact I].
    + injection H as <- <-. split; [exact Hinv | exact I].
    + injection H as <- <-. split; [apply Rotation_of_matrix_invariant | exact I].
    + injection H as <- <-. split; [apply Hexp | exact I].
    + destruct (N.eq_dec (rows aaxis_ab) 3) as [H3 | H3].
      * rewrite (built Ops aaxis_ab H3) in H. injection H as <- <-.
        split; [apply Hexp | exact I].
      * rewrite (thrown Ops aaxis_ab H3) in H. discriminate.
    + injection H as <- <-. split; [exact Hinv | exact I].
    + injection H as <- <-. split; [exact Hinv | exact I].
    + injection H as <- <-. split; [exact Hinv | exact I].
    + rewrite inverse_run in H. injection H as <- <-.
      split; [exact Hinv | apply Rotation_of_matrix_invariant].
    + rewrite reproject_run in H. injection H as <- <-. split; [ | exact I].
      destruct (force || det_drift (C_ba_ this)); [ | exact Hinv].
      right; right. now exists (rot2vec (C_ba_ this)), 0%N.
    + destruct (mul_assign C_rhs this) as [u R'] eqn:E. injection H as <- <-.
      split; [ | exact I].
      replace R' with (exec (mul_assign C_rhs) this) by (unfold exec; now rewrite E).
      rewrite mul_assign_exec. apply Rotation_of_matrix_invariant.
    + rewrite mul_rot_run in H. injection H as <- <-.
      split; [exact Hinv | apply Rotation_of_matrix_invariant].
    + destruct (div_assign C_rhs this) as [u R'] eqn:E. injection H as <- <-.
      split; [ | exact I].
      replace R' with (exec (div_assign C_rhs) this) by (unfold exec; now rewrite E).
      rewrite div_assign_exec. apply Rotation_of_matrix_invariant.
    + rewrite div_rot_run in H. injection H as <- <-.
      split; [exact Hinv | apply Rotation_of_matrix_invariant].
    + injection H as <- <-. split; [exact Hinv | exact I].
Qed.

(** A vector of two rows makes the constructor throw; the default Rotation
    times a Rotation holding the shear returns, and what it returns is
    within the invariant: the product is the shear, which the drift test
    accepts. In binary64. *)
Lemma two_rows_throw_and_a_product_returns :
  rows (S := Binary64.binary64) [1%float; 2%float] <> 3%N
  /\ forall (Ops : Operations Binary64.binary64) (this : Rotation),
       invoke (@new_of_VectorXd Binary64.binary64 [1%float; 2%float]) this
       = inl (invalid_argument not_dimension_3)
       /\ call_on_invariant (call_mul (mkRotation Binary64.shear)) Rotation_default
       /\ invoke (call_mul (mkRotation Binary64.shear)) Rotation_default
          = inr (v_rotation (mkRotation Binary64.shear), Rotation_default)
       /\ class_invariant (C_ba_ (mkRotation Binary64.shear)).
Proof.
  assert (H2 : rows (S := Binary64.binary64) [1%float; 2%float] <> 3%N)
    by discriminate.
  split; [exact H2|]. intros Ops this.
  destruct (invalid_dimension_is_the_only_failure (S := Binary64.binary64))
    as (_ & _ & _ & _ & Hthrows & Hreturns).
  assert (Hcall : invoke (call_mul (mkRotation Binary64.shear)) Rotation_default
                  = inr (v_rotation (mkRotation Binary64.shear), Rotation_default)).
  { cbn [invoke]. unfold returning. rewrite mul_rot_run. cbn [C_ba_ Rotation_default].
    rewrite Rotation_of_matrix_accepted by reflexivity.
    repeat f_equal; vm_compute; reflexivity. }
  assert (Hinv : call_on_invariant (call_mul (mkRotation Binary64.shear))
                                   (Rotation_default (S := Binary64.binary64)))
    by now left.
  split.
  - apply Hthrows.
    exists ([1%float; 2%float] : @VectorXd Binary64.binary64). now repeat split.
  - split; [exact Hinv|]. split; [exact Hcall|].
    exact (proj2 (Hreturns Ops _ _ _ _ Hcall Hinv)).
Defined.

(** C5 fails where it promises a valid value. In binary64 the matrix
    constructor on the shear [[1 1 0] [0 1 0] [0 0 1]] throws nothing and
    leaves the shear in the object; [matrix()] then returns the shear and
    [inverse()] a Rotation holding its transpose. The shear is not
    orthonormal: [|C^T C - I| = 1.7], far above [1e-6]. *)
Lemma invalid_values_are_returned :
  ~ orthonormal Binary64.shear
  /\ (forall libm_sin libm_cos libm_acos : float -> float,
        let M := Binary64.binary64_math libm_sin libm_cos libm_acos in
        orthonormality_error Binary64.shear = 1.7320508075688772%float
        /\ so3_within_tolerance Binary64.shear = false)
  /\ (forall (Ops : Operations Binary64.binary64) (this : Rotation),
        invoke (new_of_matrix Binary64.shear) this
        = inr (v_void, mkRotation Binary64.shear)
        /\ invoke call_matrix (mkRotation Binary64.shear)
           = inr (v_matrix Binary64.shear, mkRotation Binary64.shear)
        /\ invoke call_inverse (mkRotation Binary64.shear)
           = inr (v_rotation (mkRotation (transpose Binary64.shear)),
                  mkRotation Binary64.shear)).
Proof.
  split; [ | split].
  - intros [H _].
    apply (f_equal (fun M : @Matrix3d Binary64.binary64 => PrimFloat.eqb (m00 M) 1)) in H.
    vm_compute in H. discriminate.
  - intros libm_sin libm_cos libm_acos M. split; reflexivity.
  - intros Ops this. split; [ | split].
    + cbn [invoke]. unfold constructed.
      rewrite Rotation_of_matrix_accepted by reflexivity. reflexivity.
    + reflexivity.
    + cbn [invoke]. unfold returning. rewrite inverse_run. cbn [C_ba_].
      rewrite Rotation_of_matrix_accepted by reflexivity. reflexivity.
Qed.

(** C9. For every Rotation [R] with matrix [C] and every point [p],
    [R * p] returns exactly the matrix-vector product [C * p] and leaves
    [R] as it was: no side effect, no reprojection, whatever the
    determinant of [C]. *)
Theorem mul_point_is_the_product_and_pure
  {S : Scalar} (R : Rotation) (p : Vector3d) :
  mul_point p R = (mul_vec (C_ba_ R) p, R)
  /\ eval (mul_point p) R = mul_vec (C_ba_ R) p
  /\ exec (mul_point p) R = R
  /\ C_ba_ (exec (mul_point p) R) = C_ba_ R.
Proof. repeat split. Qed.

(** C6. For every pair of Rotations [A] and [B], [A *= B] stores the
    matrix product [A.C * B.C] and then runs the conditional reprojection
    on it; [A * B] leaves [A] as it was and returns what the in-place
    operator leaves in a copy of [A], hence the same matrix. The last
    conjunct is the frame convention, in exact arithmetic: the product
    applied to a point applies [B]'s matrix first. *)
Theorem compose_is_product_then_conditional_reprojection :
  (forall (S : Scalar) (Ops : Operations S) (A B : Rotation),
     mul_assign B A =
       (tt, exec (reproject false) (mkRotation (mul (C_ba_ A) (C_ba_ B))))
     /\ mul_rot B A = (exec (mul_assign B) (Rotation_copy A), A)
     /\ C_ba_ (eval (mul_rot B) A) = C_ba_ (exec (mul_assign B) A))
  /\ (forall (A B : @Matrix3d Ideal.ideal) (p : Vector3d),
        mul_vec (mul A B) p = mul_vec A (mul_vec B p)).
Proof.
  split; [ | apply IdealFacts.mul_vec_mul].
  intros S Ops A B. repeat split.
  unfold mul_assign, bind, get_C, set_C.
  rewrite reproject_run. unfold exec. rewrite reproject_run. reflexivity.
Qed.

(** C10. For every 3x3 matrix [C] whose determinant the drift test
    accepts (not [fabs(1.0 - det C) > 1e-6], which is what
    [|1 - det C| <= 1e-6] gives), constructing a Rotation from [C] stores
    [C] unchanged and [matrix()] returns it, orthonormal or not: the
    constructor looks at the determinant only. *)
Theorem matrix_constructor_checks_the_determinant_only
  {S : Scalar} {Ops : Operations S} (C : Matrix3d) :
  det_drift C = false ->
  Rotation_of_matrix C = mkRotation C
  /\ so3.matrix (Rotation_of_matrix C) = (C, mkRotation C).
Proof.
  intros H. rewrite (Rotation_of_matrix_accepted C H). split; reflexivity.
Qed.

(** The shear [[1 1 0] [0 1 0] [0 0 1]] in binary64: its determinant is
    one, so [|1 - det| <= 1e-6] and the test accepts it; it is not
    orthonormal; the constructor stores it and [matrix()] returns it. *)
Lemma shear_is_stored_unchanged :
  PrimFloat.leb
    (PrimFloat.abs (PrimFloat.sub 1 (determinant Binary64.shear))) 1e-6 = true
  /\ det_drift Binary64.shear = false
  /\ ~ orthonormal Binary64.shear
  /\ forall Ops : Operations Binary64.binary64,
       Rotation_of_matrix Binary64.shear = mkRotation Binary64.shear
       /\ so3.matrix (Rotation_of_matrix Binary64.shear)
          = (Binary64.shear, mkRotation Binary64.shear).
Proof.
  split; [reflexivity|]. split; [reflexivity|]. split.
  - intros [H _].
    apply (f_equal (fun M : @Matrix3d Binary64.binary64 => PrimFloat.eqb (m00 M) 1)) in H.
    vm_compute in H. discriminate.
  - intros Ops.
    apply (matrix_constructor_checks_the_determinant_only (S := Binary64.binary64)).
    reflexivity.
Defined.

(** C8. For every axis-angle vector [phi] and every [numTerms], the
    axis-angle constructor stores exactly [vec2rot(phi, numTerms)] and
    runs no reprojection. With the exponential map of the specification
    and [numTerms > 0] the stored matrix is the truncated series, which
    need not be orthonormal: in binary64, for [phi = (0, 0, 1)] and one
    term it is [I + phi^], of determinant two, which the drift test would
    reject and the matrix constructor would reproject. *)
Theorem aaxis_constructor_stores_vec2rot_unreprojected :
  (forall (S : Scalar) (Ops : Operations S) (phi : Vector3d) (numTerms : N),
     Rotation_of_aaxis phi numTerms = mkRotation (vec2rot phi numTerms))
  /\ (forall (S : Scalar) (M : MathLib S) (phi : Vector3d) (numTerms : N),
        numTerms <> 0%N ->
        C_ba_ (Rotation_of_aaxis (Ops := SpecMaps.spec_Operations M) phi numTerms)
        = SpecMaps.series phi (N.to_nat numTerms))
  /\ (forall libm_sin libm_cos libm_acos : float -> float,
        let M := Binary64.binary64_math libm_sin libm_cos libm_acos in
        let Ops := SpecMaps.spec_Operations M in
        let R := Rotation_of_aaxis Binary64.e_z 1 in
        C_ba_ R = Binary64.unit_plus_hat
        /\ determinant (C_ba_ R) = 2%float
        /\ det_drift (C_ba_ R) = true
        /\ ~ orthonormal (C_ba_ R)
        /\ Rotation_of_matrix (C_ba_ R) = mkRotation (reprojection (C_ba_ R))).
Proof.
  split; [reflexivity|]. split.
  - intros S M phi numTerms H. cbn [Rotation_of_aaxis C_ba_ vec2rot SpecMaps.spec_Operations].
    unfold SpecMaps.exponentialMap. apply N.eqb_neq in H. now rewrite H.
  - intros libm_sin libm_cos libm_acos M Ops R.
    assert (HR : C_ba_ R = Binary64.unit_plus_hat) by (vm_compute; reflexivity).
    rewrite HR. split; [reflexivity|]. split; [reflexivity|].
    split; [reflexivity|]. split.
    + intros [H _].
      apply (f_equal (fun M : @Matrix3d Binary64.binary64 => PrimFloat.eqb (m00 M) 1)) in H.
      vm_compute in H. discriminate.
    + apply Rotation_of_matrix_drifted. reflexivity.
Qed.

(** C4, as the code has it. For every pair of Rotations [A] and [B],
    [A /= B] stores the product [A.C * B.C^T] and then runs the
    conditional reprojection on it, and [A / B] does the same on a copy
    of [A] and leaves [A] as it was. When the drift test accepts the
    transpose of [B]'s matrix, so that [B.inverse()] is not reprojected,
    [A / B] and [A * B.inverse()] are the same Rotation. *)
Theorem div_is_product_with_transpose
  {S : Scalar} {Ops : Operations S} (A B : Rotation) :
  div_assign B A =
    (tt, exec (reproject false)
              (mkRotation (mul (C_ba_ A) (transpose (C_ba_ B)))))
  /\ div_rot B A = (exec (div_assign B) (Rotation_copy A), A)
  /\ (det_drift (transpose (C_ba_ B)) = false ->
      eval (div_rot B) A = eval (mul_rot (eval inverse B)) A).
Proof.
  split; [ | split; [reflexivity | apply div_rot_is_mul_rot_inverse]].
  unfold div_assign, bind, get_C, set_C.
  rewrite reproject_run. unfold exec. rewrite reproject_run. reflexivity.
Qed.

(** The quarter turn divided by itself, in binary64. *)
Lemma quarter_turn_div_itself :
  det_drift (transpose Binary64.quarter_turn) = false
  /\ forall Ops : Operations Binary64.binary64,
       let A := mkRotation Binary64.quarter_turn in
       eval (div_rot A) A = eval (mul_rot (eval inverse A)) A
       /\ eval (div_rot A) A = Rotation_default.
Proof.
  split; [reflexivity|]. intros Ops A. split.
  - apply (div_is_product_with_transpose (S := Binary64.binary64) A A).
    reflexivity.
  - rewrite div_rot_eval. apply Rotation_of_matrix_accepted. reflexivity.
Defined.

(** C4 fails for a [B] that the drift test rejects. In exact arithmetic,
    with the maps of the specification: [A] the quarter turn about z and
    [B] built from the axis-angle vector [(0, 0, 1)] with one series term,
    so [B.C = I + e_z^] of determinant two. [A / B] reprojects
    [A.C * B.C^T] to the turn by one radian; [B.inverse()] reprojects
    [B.C^T] first, and [A * B.inverse()] is the turn by [pi/2 - 1]. The
    two differ by more than [1e-6] (by more than [1/4] in the first
    entry). *)
Lemma div_differs_from_mul_inverse :
  let Ops := Ideal.ideal_Operations in
  let A := Rotation_of_matrix Ideal.quarter_turn in
  let B := Rotation_of_aaxis Ideal.e_z 1 in
  C_ba_ B = Ideal.unit_plus_hat
  /\ det_drift (transpose (C_ba_ B)) = true
  /\ C_ba_ (eval (div_rot B) A) = Ideal.turn_z (cos 1) (sin 1)
  /\ C_ba_ (eval (mul_rot (eval inverse B)) A) = Ideal.turn_z (sin 1) (cos 1)
  /\ nearEqual (M := Ideal.ideal_math)
       (C_ba_ (eval (div_rot B) A))
       (C_ba_ (eval (mul_rot (eval inverse B)) A)) s_1e_6 = false.
Proof.
  intros Ops A B.
  assert (HB : C_ba_ B = Ideal.unit_plus_hat) by apply IdealRun.series_e_z_1.
  split; [exact HB|]. split.
  { rewrite HB. apply IdealRun.det_drift_unit_minus_hat. }
  split; [apply IdealRun.div_example|].
  split; [apply IdealRun.mul_inverse_example|].
  unfold A, B, Ops.
  rewrite IdealRun.div_example, IdealRun.mul_inverse_example.
  apply IdealRun.examples_not_near.
Qed.



(** * The claims on the maps and on the inverse, in exact arithmetic

    The maps are those of the specification ([SpecMaps]); the scalar is a
    real number, so that [sqrt], [sin], [cos] and [acos] are the functions
    themselves. *)





(** The same on [tilted_turn] in binary64, by computation: a rotation
    matrix rounded to binary64 is within the tolerances, its transpose is
    stored as it is, and both products with the inverse are within [1e-6]
    of the identity. *)
Lemma tilted_turn_cancels :
  forall libm_sin libm_cos libm_acos : float -> float,
    let M := Binary64.binary64_math libm_sin libm_cos libm_acos in
    forall Ops : Operations Binary64.binary64,
      let R := Rotation_of_matrix Binary64.tilted_turn in
      so3_within_tolerance (C_ba_ R) = true
      /\ C_ba_ (eval inverse R) = transpose Binary64.tilted_turn
      /\ nearEqual (C_ba_ (eval (mul_rot (eval inverse R)) R))
                   (C_ba_ Rotation_default) s_1e_6 = true
      /\ nearEqual (C_ba_ (eval (mul_rot R) (eval inverse R)))
                   (C_ba_ Rotation_default) s_1e_6 = true.
Proof.
  intros libm_sin libm_cos libm_acos M Ops R.
  repeat split; vm_compute; reflexivity.
Qed.

(** * Further properties of the class *)

(** ** For every scalar arithmetic *)

Section Further.
Context {S : Scalar} {Ops : Operations S}.

(** X1. Whatever sequence of constructors and member functions produced
    it, a Rotation holds the identity, or a matrix that the drift test
    accepts, or an output of [vec2rot]: this, and nothing about
    orthonormality, is what the class maintains. *)
Theorem reachable_keeps_the_class_invariant (R : Rotation) :
  reachable R -> class_invariant (C_ba_ R).
Proof.
  induction 1 as [ | C _ IH | C | v n | v C H | this C _ _ _ IH
                 | this force _ IH | this rhs _ _ | this rhs _ _
                 | this _ _ | this rhs _ _ | this rhs _ _ ].
  - left; reflexivity.
  - exact IH.
  - apply accepted_or_reprojected_invariant, Rotation_of_matrix_post.
  - right; right. now exists v, n.
  - unfold Rotation_of_VectorXd in H.
    destruct (negb (rows v =? 3)%N); [discriminate|].
    injection H as <-. right; right. now eexists _, _.
  - exact IH.
  - rewrite reproject_exec.
    destruct (force || det_drift (C_ba_ this)) eqn:E; [|exact IH].
    right; right. now eexists _, _.
  - rewrite mul_assign_exec.
    apply accepted_or_reprojected_invariant, Rotation_of_matrix_post.
  - rewrite div_assign_exec.
    apply accepted_or_reprojected_invariant, Rotation_of_matrix_post.
  - rewrite inverse_eval.
    apply accepted_or_reprojected_invariant, Rotation_of_matrix_post.
  - rewrite mul_rot_eval.
    apply accepted_or_reprojected_invariant, Rotation_of_matrix_post.
  - rewrite div_rot_eval.
    apply accepted_or_reprojected_invariant, Rotation_of_matrix_post.
Qed.

(** X2. When the drift test accepts both the matrix of [R] and its
    transpose, [R.inverse().inverse()] is [R] again, and dividing by
    [R.inverse()] is composing with [R]. *)
Theorem inverse_is_an_involution (A R : Rotation) :
  det_drift (C_ba_ R) = false ->
  det_drift (transpose (C_ba_ R)) = false ->
  eval inverse (eval inverse R) = R
  /\ eval (div_rot (eval inverse R)) A = eval (mul_rot R) A.
Proof.
  intros H Ht. rewrite (inverse_accepted R Ht). split.
  - rewrite inverse_eval. cbn [C_ba_]. rewrite transpose_involutive.
    rewrite (Rotation_of_matrix_accepted _ H). apply Rotation_eta.
  - rewrite div_rot_eval, mul_rot_eval. cbn [C_ba_].
    now rewrite transpose_involutive.
Qed.

(** X3. When the drift test accepts the matrix that [reproject] writes,
    a second [reproject(false)] changes nothing, after [reproject(false)]
    as after [reproject(true)]. *)
Theorem conditional_reprojection_is_idempotent (this : Rotation) :
  det_drift (reprojection (C_ba_ this)) = false ->
  exec (reproject false) (exec (reproject false) this)
  = exec (reproject false) this
  /\ exec (reproject false) (exec (reproject true) this)
     = exec (reproject true) this.
Proof.
  intros H. rewrite (reproject_exec false this), (reproject_exec true this).
  cbn [orb]. split.
  - destruct (det_drift (C_ba_ this)) eqn:E.
    + rewrite reproject_exec. cbn [orb C_ba_]. now rewrite H.
    + rewrite reproject_exec. cbn [orb]. now rewrite E.
  - rewrite reproject_exec. cbn [orb C_ba_]. now rewrite H.
Qed.



End Further.

(** A Rotation obtained in binary64 through the matrix constructor,
    [inverse] and a composition. *)
Lemma a_reachable_rotation :
  det_drift Binary64.tilted_turn = false
  /\ forall Ops : Operations Binary64.binary64,
       let Q := Rotation_of_matrix Binary64.tilted_turn in
       let R := eval (mul_rot Q) (eval inverse Q) in
       reachable R /\ class_invariant (C_ba_ R).
Proof.
  split; [reflexivity|]. intros Ops Q R.
  assert (H : reachable R)
    by (apply reach_mul, reach_inverse, reach_of_matrix).
  split; [exact H | exact (reachable_keeps_the_class_invariant H)].
Defined.

(** The rounded turn of [tilted_turn] in binary64 is its inverse's
    inverse. *)
Lemma tilted_turn_inverse_twice :
  det_drift Binary64.tilted_turn = false
  /\ det_drift (transpose Binary64.tilted_turn) = false
  /\ forall Ops : Operations Binary64.binary64,
       let R := mkRotation Binary64.tilted_turn in
       eval inverse (eval inverse R) = R
       /\ eval (div_rot (eval inverse R)) R = eval (mul_rot R) R.
Proof.
  split; [reflexivity|]. split; [reflexivity|]. intros Ops R.
  apply (@inverse_is_an_involution Binary64.binary64 Ops R R); reflexivity.
Defined.

(** ** In binary64: the inverse of a composition *)



(** ** In binary64: NaN *)

Module Binary64Nan.
Import Binary64.
Local Open Scope float_scope.

Lemma nan_of_spec (x : float) : Prim2SF x = S754_nan -> x = nan.
Proof. intros H. rewrite <- (SF2Prim_Prim2SF x), H. reflexivity. Qed.

Lemma mul_nan_l (y : float) : nan * y = nan.
Proof. apply nan_of_spec. rewrite mul_spec. reflexivity. Qed.

Lemma mul_nan_r (x : float) : x * nan = nan.
Proof.
  apply nan_of_spec. rewrite mul_spec.
  change (Prim2SF nan) with S754_nan. now destruct (Prim2SF x).
Qed.

Lemma add_nan_l (y : float) : nan + y = nan.
Proof. apply nan_of_spec. rewrite add_spec. reflexivity. Qed.

Lemma add_nan_r (x : float) : x + nan = nan.
Proof.
  apply nan_of_spec. rewrite add_spec.
  change (Prim2SF nan) with S754_nan. now destruct (Prim2SF x).
Qed.

Lemma sub_nan_l (y : float) : nan - y = nan.
Proof. apply nan_of_spec. rewrite sub_spec. reflexivity. Qed.

Lemma sub_nan_r (x : float) : x - nan = nan.
Proof.
  apply nan_of_spec. rewrite sub_spec.
  change (Prim2SF nan) with S754_nan. now destruct (Prim2SF x).
Qed.

Ltac to_floats :=
  cbv [mul transpose determinant dot3 Identity mul_vec entries has_nan
       m00 m01 m02 m10 m11 m12 m20 m21 m22 vx vy vz
       s_add s_sub s_mul s_zero s_one s_fabs s_gt s_1e_6 scalar binary64] in *.

Ltac nan_simpl :=
  repeat (rewrite ?mul_nan_l, ?mul_nan_r, ?add_nan_l, ?add_nan_r,
            ?sub_nan_l, ?sub_nan_r).

Ltac nan_cases H :=
  cbn [In] in H;
  repeat match type of H with
         | _ \/ _ => destruct H as [H | H]
         end; try contradiction; subst.

Lemma determinant_nan (C : @Matrix3d binary64) :
  has_nan C -> determinant C = nan.
Proof.
  destruct C. intros H. to_floats. nan_cases H; nan_simpl; reflexivity.
Qed.

Lemma has_nan_accepted (C : @Matrix3d binary64) : has_nan C -> det_drift C = false.
Proof.
  intros H. unfold det_drift. rewrite (determinant_nan H). reflexivity.
Qed.

Lemma has_nan_transpose (C : @Matrix3d binary64) :
  has_nan C -> has_nan (transpose C).
Proof. destruct C. intros H. to_floats. nan_cases H; cbn [In]; auto 12. Qed.

Lemma has_nan_mul_l (A B : @Matrix3d binary64) : has_nan A -> has_nan (mul A B).
Proof.
  destruct A, B. intros H. to_floats.
  nan_cases H; nan_simpl; cbn [In]; auto 12.
Qed.

Lemma has_nan_mul_r (A B : @Matrix3d binary64) : has_nan B -> has_nan (mul A B).
Proof.
  destruct A, B. intros H. to_floats.
  nan_cases H; nan_simpl; cbn [In]; auto 12.
Qed.

(** X4. In binary64 a matrix with a NaN entry has a NaN determinant, and
    [fabs(1.0 - NaN) > 1e-6] is false: the drift test accepts it, the
    matrix constructor stores it as it is and [reproject(false)] leaves
    it alone. *)
Theorem nan_passes_the_drift_test
  (Ops : Operations binary64) (C : @Matrix3d binary64) :
  has_nan C ->
  determinant C = nan
  /\ det_drift C = false
  /\ Rotation_of_matrix C = mkRotation C
  /\ exec (reproject false) (mkRotation C) = mkRotation C.
Proof.
  intros H. pose proof (has_nan_accepted H) as Ha.
  split; [now apply determinant_nan|]. split; [exact Ha|].
  split; now apply Rotation_of_matrix_accepted.
Qed.

Lemma poisoned_is_stored :
  has_nan poisoned
  /\ forall Ops : Operations binary64,
       Rotation_of_matrix poisoned = mkRotation poisoned
       /\ exec (reproject false) (mkRotation poisoned) = mkRotation poisoned.
Proof.
  assert (H : has_nan poisoned) by (left; reflexivity).
  split; [exact H|]. intros Ops.
  destruct (nan_passes_the_drift_test Ops H) as (_ & _ & H1 & H2).
  split; assumption.
Defined.

(** X5. In binary64 a NaN is never repaired by the class: when the matrix
    of [A] or of [B] has a NaN entry, [A *= B], [A * B], [A /= B] and
    [A / B] store the plain product, unreprojected and with a NaN entry,
    and [A.inverse()] of a matrix with a NaN entry is its plain transpose,
    with a NaN entry. *)
Theorem nan_survives_every_operation
  (Ops : Operations binary64) (A B : Rotation) :
  has_nan (C_ba_ A) \/ has_nan (C_ba_ B) ->
  (exec (mul_assign B) A = mkRotation (mul (C_ba_ A) (C_ba_ B))
   /\ eval (mul_rot B) A = mkRotation (mul (C_ba_ A) (C_ba_ B))
   /\ has_nan (mul (C_ba_ A) (C_ba_ B)))
  /\ (exec (div_assign B) A = mkRotation (mul (C_ba_ A) (transpose (C_ba_ B)))
      /\ eval (div_rot B) A = mkRotation (mul (C_ba_ A) (transpose (C_ba_ B)))
      /\ has_nan (mul (C_ba_ A) (transpose (C_ba_ B))))
  /\ (has_nan (C_ba_ A) ->
      eval inverse A = mkRotation (transpose (C_ba_ A))
      /\ has_nan (transpose (C_ba_ A))).
Proof.
  intros H.
  assert (Hm : has_nan (mul (C_ba_ A) (C_ba_ B))).
  { destruct H as [H | H]; [now apply has_nan_mul_l | now apply has_nan_mul_r]. }
  assert (Hd : has_nan (mul (C_ba_ A) (transpose (C_ba_ B)))).
  { destruct H as [H | H];
      [now apply has_nan_mul_l | now apply has_nan_mul_r, has_nan_transpose]. }
  rewrite mul_assign_exec, div_assign_exec, mul_rot_eval, div_rot_eval, inverse_eval.
  rewrite (Rotation_of_matrix_accepted _ (has_nan_accepted Hm)).
  rewrite (Rotation_of_matrix_accepted _ (has_nan_accepted Hd)).
  repeat split; try assumption.
  - now apply Rotation_of_matrix_accepted, has_nan_accepted, has_nan_transpose.
  - now apply has_nan_transpose.
Qed.

Lemma poisoned_survives :
  has_nan poisoned
  /\ forall Ops : Operations binary64,
       let A := mkRotation quarter_turn in
       let B := mkRotation poisoned in
       has_nan (C_ba_ (eval (mul_rot B) A))
       /\ has_nan (C_ba_ (eval (div_rot B) A))
       /\ has_nan (C_ba_ (eval inverse B)).
Proof.
  assert (H : has_nan poisoned) by (left; reflexivity).
  split; [exact H|]. intros Ops A B.
  destruct (@nan_survives_every_operation Ops A B (or_intror H))
    as ((_ & -> & Hm) & (_ & -> & Hd) & _).
  destruct (@nan_survives_every_operation Ops B B (or_introl H))
    as (_ & _ & Hi).
  destruct (Hi H) as [-> Ht]. auto.
Defined.

End Binary64Nan.

(** ** In exact arithmetic: a drifted matrix is reprojected once *)

Module IdealLaws.
Import Ideal IdealFacts.
Local Open Scope R_scope.
#[local] Existing Instance ideal_math.

(** The reprojection of [I + e_z^] by the maps of the specification. *)
Lemma reprojection_unit_plus_hat :
  reprojection (Ops := ideal_Operations) unit_plus_hat = turn_z (cos 1) (sin 1).
Proof.
  unfold reprojection.
  change (rot2vec unit_plus_hat) with (SpecMaps.logarithmicMap unit_plus_hat).
  rewrite IdealRun.log_unit_plus_hat.
  change (vec2rot e_z 0) with (SpecMaps.exponentialMap e_z 0).
  unfold e_z. rewrite IdealRun.rodrigues_along_z by ring.
  f_equal. ring.
Qed.

(** [I + e_z^], of determinant two, is reprojected once and for all. *)
Lemma drifted_series_is_reprojected_once :
  let Ops := ideal_Operations in
  let R := Rotation_of_aaxis e_z 1 in
  det_drift (C_ba_ R) = true
  /\ det_drift (reprojection (C_ba_ R)) = false
  /\ exec (reproject false) (exec (reproject false) R)
     = exec (reproject false) R
  /\ exec (reproject false) (exec (reproject true) R)
     = exec (reproject true) R.
Proof.
  intros Ops R.
  assert (HR : C_ba_ R = unit_plus_hat) by apply IdealRun.series_e_z_1.
  assert (Hacc : det_drift (reprojection (C_ba_ R)) = false).
  { rewrite HR. unfold Ops. rewrite reprojection_unit_plus_hat.
    apply SO3_accepted, IdealRun.SO3_turn_z.
    generalize IdealRun.cos2_sin2_1. lra. }
  split; [rewrite HR; apply IdealRun.det_drift_unit_plus_hat|].
  split; [exact Hacc|].
  exact (conditional_reprojection_is_idempotent R Hacc).
Defined.

End IdealLaws.

(** ** The constants of [CommonMath.hpp] *)

(** X10. Of the constants derived from [PI], [TWO_PI] and [RAD2DEG] are
    the binary64 values of [2 * PI] and [180 / PI]; the others, written
    with fifteen digits, are not the values computed from [PI]:
    [PI_DIV_TWO] is above [PI / 2] and twice it is above [PI], twice
    [PI_DIV_FOUR] is below [PI_DIV_TWO], [ONE_DIV_PI] is above [1 / PI],
    [ONE_DIV_TWO_PI] below [1 / TWO_PI], [DEG2RAD] below [PI / 180], and
    [DEG2RAD * RAD2DEG] is below one by more than [1e-14]. *)
Theorem derived_constants_are_truncated :
  constants.TWO_PI = PrimFloat.mul 2 constants.PI
  /\ constants.RAD2DEG = PrimFloat.div 180 constants.PI
  /\ PrimFloat.ltb (PrimFloat.div constants.PI 2) constants.PI_DIV_TWO = true
  /\ PrimFloat.ltb constants.PI
       (PrimFloat.add constants.PI_DIV_TWO constants.PI_DIV_TWO) = true
  /\ PrimFloat.ltb (PrimFloat.add constants.PI_DIV_FOUR constants.PI_DIV_FOUR)
       constants.PI_DIV_TWO = true
  /\ PrimFloat.ltb (PrimFloat.div 1 constants.PI) constants.ONE_DIV_PI = true
  /\ PrimFloat.ltb constants.ONE_DIV_TWO_PI (PrimFloat.div 1 constants.TWO_PI)
     = true
  /\ PrimFloat.ltb constants.DEG2RAD (PrimFloat.div constants.PI 180) = true
  /\ PrimFloat.ltb (PrimFloat.mul constants.DEG2RAD constants.RAD2DEG)
       (PrimFloat.sub 1 1e-14) = true.
Proof. repeat split. Qed.
